(** * OAuth credential loading of google-calendar-mcp: [src/auth/client.ts]

    A shallow embedding of the credential loaders of [client.ts] and the
    properties of its specification.  The file is present at two
    revisions; they differ only in [loadCredentialsWithFallback]:

    - the environment revision reads three [process.env] variables,
    - the SDK revision queries the Doppler secrets service.

    [loadCredentialsFromFile] and [loadCredentials] are identical in both.

    JavaScript values are modelled as far as the code inspects them:
    truthiness, property reads, exceptions with their [message], and the
    observable effects (file read, SDK call, [stderr] write) as a trace. *)

From Stdlib Require Import Ascii String PrimFloat.
From stdpp Require Import base option list strings gmap.

Local Open Scope string_scope.
Set Warnings "-register-all".

(** ** Characters that a string literal cannot hold directly *)

Definition dquote : ascii := Ascii false true false false false true false false.
Definition newline : ascii := Ascii false true false true false false false false.

(** ** JavaScript values *)

(** What [JSON.parse] can return, plus [undefined] (the value of a property
    that is not there).  Numbers are IEEE doubles, as in JavaScript.  An
    object is the list of its own properties; [JSON.parse] keeps one entry
    per key, so the first match is the property. *)
Inductive jsval : Type :=
| JUndefined
| JNull
| JBool (b : bool)
| JNum (x : float)
| JStr (s : string)
| JArr (items : list jsval)
| JObj (props : list (string * jsval)).

Definition is_empty (s : string) : bool :=
  match s with EmptyString => true | String _ _ => false end.

(** ToBoolean: [undefined], [null], [false], [0], [-0], [NaN] and the empty
    string are falsy; every array and object is truthy, the empty ones too. *)
Definition truthy (v : jsval) : bool :=
  match v with
  | JUndefined | JNull => false
  | JBool b => b
  | JNum x => negb (PrimFloat.is_zero x || PrimFloat.is_nan x)
  | JStr s => negb (is_empty s)
  | JArr _ | JObj _ => true
  end.

(** [a || b] on values. *)
Definition js_or (a b : jsval) : jsval := if truthy a then a else b.

Fixpoint own_prop (props : list (string * jsval)) (k : string) : option jsval :=
  match props with
  | [] => None
  | (k', v) :: rest => if String.eqb k' k then Some v else own_prop rest k
  end.

(** ** Exceptions *)

Inductive ErrorClass := PlainError | TypeError | SyntaxError | SystemError.

(** A thrown value.  The code only asks [error instanceof Error] and then
    reads [error.message], or else interpolates the value into a template
    string; a thrown non-Error is therefore kept as its string conversion. *)
Inductive Thrown :=
| ErrorObject (cls : ErrorClass) (message : string)
| NonError (shown : string).

(** [new Error(msg)] *)
Definition Error (msg : string) : Thrown := ErrorObject PlainError msg.

(** [error instanceof Error ? error.message : error], inside a template. *)
Definition describe (e : Thrown) : string :=
  match e with
  | ErrorObject _ m => m
  | NonError s => s
  end.

Inductive Outcome (A : Type) :=
| Returned (a : A)
| Threw (e : Thrown).
Arguments Returned {A} a.
Arguments Threw {A} e.

(** [v.k] for the property names the code reads ([installed], [client_id],
    [client_secret], [redirect_uris]): none of them is inherited from a
    prototype, so on a primitive or an array the read gives [undefined],
    and on an object it is the own property.  Reading from [null] or
    [undefined] throws a TypeError (the message is Node's). *)
Definition get_prop (v : jsval) (k : string) : Outcome jsval :=
  match v with
  | JUndefined =>
      Threw (ErrorObject TypeError
        ("Cannot read properties of undefined (reading '" +:+ k +:+ "')"))
  | JNull =>
      Threw (ErrorObject TypeError
        ("Cannot read properties of null (reading '" +:+ k +:+ "')"))
  | JObj props => Returned (default JUndefined (own_prop props k))
  | JBool _ | JNum _ | JStr _ | JArr _ => Returned JUndefined
  end.

(** ** The credential records *)

(** [OAuthCredentials].  The TypeScript field types are erased at run time
    and [JSON.parse] returns [any], so a field holds whatever was read. *)
Record OAuthCredentials := {
  client_id : jsval;
  client_secret : jsval;
  redirect_uris : jsval
}.

(** The return type of [loadCredentials]. *)
Record MinimalCredential := {
  min_client_id : jsval;
  min_client_secret : jsval
}.

(** ** The Doppler SDK response *)

(** Modelled from the spec: the response type of the SDK's
    [secrets.list(project, config)], which is declared outside this file:
    an optional mapping from secret names to entries that carry an optional
    [computed] string. *)
Record Secret := { computed : option string }.
Record SecretsResponse := { secrets : option (gmap string Secret) }.

(** ** The world a call runs in, and its effects *)

Record World := {
  (** [process.env] *)
  env : gmap string string;
  (** what [fs.readFile(getKeysFilePath(), "utf-8")] followed by
      [JSON.parse] yields: the parsed document, or what either throws *)
  keys_file : Outcome jsval;
  (** [new DopplerSDK({accessToken}).secrets.list(project, config)] *)
  doppler_list : string -> string -> string -> Outcome SecretsResponse
}.

Inductive Event :=
| ReadKeysFile
| SdkList (token project config : string)
| StderrWrite (text : string).

(** A computation reads the world, appends to the trace and returns or
    throws. *)
Definition Js (A : Type) : Type := World -> list Event -> list Event * Outcome A.

Definition ret {A} (a : A) : Js A := fun _ tr => (tr, Returned a).
Definition throw {A} (e : Thrown) : Js A := fun _ tr => (tr, Threw e).
Definition bind {A B} (m : Js A) (k : A -> Js B) : Js B :=
  fun w tr =>
    match m w tr with
    | (tr', Returned a) => k a w tr'
    | (tr', Threw e) => (tr', Threw e)
    end.
Definition try_catch {A} (body : Js A) (handler : Thrown -> Js A) : Js A :=
  fun w tr =>
    match body w tr with
    | (tr', Returned a) => (tr', Returned a)
    | (tr', Threw e) => handler e w tr'
    end.

Declare Scope js_scope.
Delimit Scope js_scope with js.
Notation "'let*' x := m 'in' k" := (bind m (fun x => k))
  (at level 10, x name, m at level 100, k at level 200) : js_scope.
Notation "m ;; k" := (bind m (fun _ => k))
  (at level 100, k at level 200, right associativity) : js_scope.
Local Open Scope js_scope.

Definition lift {A} (o : Outcome A) : Js A := fun _ tr => (tr, o).
Definition emit (ev : Event) : Js unit := fun _ tr => ((tr ++ [ev])%list, Returned tt).
Definition when (b : bool) (m : Js unit) : Js unit := if b then m else ret tt.

(** [process.env.NAME]: a string, or [undefined] ([None]) when unset. *)
Definition getenv (name : string) : Js (option string) :=
  fun w tr => (tr, Returned (env w !! name)).

(** Lines 6-7: read the key file and parse it. *)
Definition readKeys : Js jsval :=
  fun w tr => ((tr ++ [ReadKeysFile])%list, keys_file w).

(** [await doppler.secrets.list(project, config)] *)
Definition secrets_list (token project config : string) : Js SecretsResponse :=
  fun w tr => ((tr ++ [SdkList token project config])%list, doppler_list w token project config).

(** Run a computation from an empty trace. *)
Definition run {A} (m : Js A) (w : World) : list Event * Outcome A := m w [].
Definition result {A} (m : Js A) (w : World) : Outcome A := (run m w).2.
Definition trace {A} (m : Js A) (w : World) : list Event := (run m w).1.

(** ** Text of messages *)

(** [starts_with msg part]: [msg] begins with [part]. *)
Fixpoint starts_with (msg part : string) {struct part} : bool :=
  match part with
  | EmptyString => true
  | String c part' =>
      match msg with
      | EmptyString => false
      | String d msg' => Ascii.eqb c d && starts_with msg' part'
      end
  end.

(** [mentions msg part]: [part] occurs in [msg]. *)
Fixpoint mentions (msg part : string) : bool :=
  starts_with msg part ||
  match msg with
  | EmptyString => false
  | String _ rest => mentions rest part
  end.

(** ** [loadCredentialsFromFile] (the same at both revisions) *)

Definition invalid_format_message : string :=
  "Invalid credentials file format. Expected either " +:+
  String dquote "installed" +:+
  String dquote " object or direct client_id/client_secret fields.".

Definition default_redirect_uris : jsval :=
  JArr [JStr "http://localhost:3000/oauth2callback"].

Definition loadCredentialsFromFile : Js OAuthCredentials :=
  let* keys := readKeys in
  let* installed := lift (get_prop keys "installed") in
  if truthy installed then
    (* const { client_id, client_secret, redirect_uris } = keys.installed *)
    let* cid := lift (get_prop installed "client_id") in
    let* csec := lift (get_prop installed "client_secret") in
    let* uris := lift (get_prop installed "redirect_uris") in
    ret {| client_id := cid; client_secret := csec; redirect_uris := uris |}
  else
    (* keys.client_id && keys.client_secret *)
    let* both :=
      (let* a := lift (get_prop keys "client_id") in
       if truthy a then lift (get_prop keys "client_secret") else ret a) in
    if truthy both then
      let* cid := lift (get_prop keys "client_id") in
      let* csec := lift (get_prop keys "client_secret") in
      let* uris := lift (get_prop keys "redirect_uris") in
      ret {| client_id := cid;
             client_secret := csec;
             redirect_uris := js_or uris default_redirect_uris |}
    else
      throw (Error invalid_format_message).

(** ** [loadCredentials] (the same at both revisions) *)

Definition missing_field_message : string :=
  "Client ID or Client Secret missing in credentials.".

Section Validator.
(** The resolver of the revision at hand. *)
Variable loadCredentialsWithFallback : Js OAuthCredentials.

Definition loadCredentialsUsing : Js MinimalCredential :=
  try_catch
    (let* credentials := loadCredentialsWithFallback in
     if negb (truthy (client_id credentials))
        || negb (truthy (client_secret credentials))
     then throw (Error missing_field_message)
     else ret {| min_client_id := client_id credentials;
                 min_client_secret := client_secret credentials |})
    (fun error =>
       throw (Error ("Error loading credentials: " +:+ describe error))).
End Validator.

(** ** [initializeOAuth2Client] (the same at both revisions) *)

(** [s[0]] for a non-empty string.  A string is held as its UTF-8 bytes,
    and JavaScript indexes UTF-16 units.  The first unit is the first
    character when that takes one to three bytes (the Basic Multilingual
    Plane); for a four-byte character it is the high surrogate of the
    pair, held here in the same three-byte form. *)
Definition first_unit (s : string) : string :=
  match s with
  | EmptyString => EmptyString
  | String b0 rest =>
      let n0 := N_of_ascii b0 in
      if (n0 <? 0xC0)%N then String b0 EmptyString
      else if (n0 <? 0xE0)%N then String.substring 0 2 s
      else if (n0 <? 0xF0)%N then String.substring 0 3 s
      else
        match rest with
        | String b1 (String b2 _) =>
            (* (code point - 0x10000) >> 10 *)
            let top :=
              (N.lor (N.shiftl (N.land n0 7) 8)
                 (N.lor (N.shiftl (N.land (N_of_ascii b1) 63) 2)
                        (N.shiftr (N.land (N_of_ascii b2) 63) 4))
               - 0x40)%N in
            let hs := (0xD800 + top)%N in
            String (ascii_of_N (N.lor 0xE0 (N.shiftr hs 12)))
              (String (ascii_of_N (N.lor 0x80 (N.land (N.shiftr hs 6) 63)))
                 (String (ascii_of_N (N.lor 0x80 (N.land hs 63)))
                    EmptyString))
        | _ => s
        end
  end.

(** [v[0]]: the first element of an array, the first UTF-16 unit of a
    string, the property [0] of an object; [undefined] when there is none
    and on the other primitives; a TypeError on [null] and [undefined]. *)
Definition get_index0 (v : jsval) : Outcome jsval :=
  match v with
  | JUndefined =>
      Threw (ErrorObject TypeError
        "Cannot read properties of undefined (reading '0')")
  | JNull =>
      Threw (ErrorObject TypeError
        "Cannot read properties of null (reading '0')")
  | JArr items => Returned (default JUndefined (head items))
  | JStr s => Returned (if is_empty s then JUndefined else JStr (first_unit s))
  | JObj props => Returned (default JUndefined (own_prop props "0"))
  | JBool _ | JNum _ => Returned JUndefined
  end.

(** What [new OAuth2Client(options)] builds.  The class belongs to
    [google-auth-library]; the client is kept as the options it was
    built from. *)
Record OAuth2Client := {
  clientId : jsval;
  clientSecret : jsval;
  redirectUri : jsval
}.

Section Initializer.
(** The resolver of the revision at hand. *)
Variable loadCredentialsWithFallback : Js OAuthCredentials.

Definition initializeOAuth2ClientUsing : Js OAuth2Client :=
  try_catch
    (let* credentials := loadCredentialsWithFallback in
     let* first := lift (get_index0 (redirect_uris credentials)) in
     ret {| clientId := client_id credentials;
            clientSecret := client_secret credentials;
            redirectUri := first |})
    (fun error =>
       throw (Error ("Error loading OAuth keys: " +:+ describe error))).
End Initializer.

(** [process.env.NAME] as a value. *)
Definition to_js (o : option string) : jsval := from_option JStr JUndefined o.

(** [process.env.NODE_ENV !== 'test'] *)
Definition not_test_mode : Js bool :=
  let* node_env := getenv "NODE_ENV" in
  ret (negb (bool_decide (node_env = Some "test"))).

(** ** The environment revision *)

Module EnvRevision.

Definition not_found_message : string :=
  "Doppler OAuth credentials not found. Please ensure GOOGLE_CLIENT_ID, GOOGLE_CLIENT_SECRET, and GOOGLE_REDIRECT_URI environment variables are set.".

Definition notice : string :=
  "Loading OAuth credentials from Doppler environment variables" +:+
  String newline EmptyString.

Definition loadCredentialsWithFallback : Js OAuthCredentials :=
  let* clientId := getenv "GOOGLE_CLIENT_ID" in
  let* clientSecret := getenv "GOOGLE_CLIENT_SECRET" in
  let* redirectUri := getenv "GOOGLE_REDIRECT_URI" in
  if truthy (to_js clientId) && truthy (to_js clientSecret)
     && truthy (to_js redirectUri)
  then
    let* verbose := not_test_mode in
    when verbose (emit (StderrWrite notice)) ;;
    ret {| client_id := to_js clientId;
           client_secret := to_js clientSecret;
           redirect_uris := JArr [to_js redirectUri] |}
  else
    throw (Error not_found_message).

Definition loadCredentials : Js MinimalCredential :=
  loadCredentialsUsing loadCredentialsWithFallback.

Definition initializeOAuth2Client : Js OAuth2Client :=
  initializeOAuth2ClientUsing loadCredentialsWithFallback.

End EnvRevision.

(** ** The SDK revision *)

Module SdkRevision.

Definition missing_token_message : string :=
  "DOPPLER_TOKEN environment variable not set".

Definition not_found_message : string :=
  "Doppler OAuth credentials not found. Please ensure GOOGLE_CLIENT_ID, GOOGLE_CLIENT_SECRET, and GOOGLE_REDIRECT_URI are set in Doppler.".

Definition failure_prefix : string :=
  "Failed to load OAuth credentials from Doppler: ".

Definition notice : string :=
  "Loading OAuth credentials from Doppler via SDK" +:+
  String newline EmptyString.

(** [secrets.NAME?.computed] *)
Definition computed_of (secrets : gmap string Secret) (name : string)
  : option string :=
  secrets !! name ≫= computed.

(** The body of the [try] block, lines 104-132. *)
Definition try_body : Js OAuthCredentials :=
  let* dopplerToken := getenv "DOPPLER_TOKEN" in
  if negb (truthy (to_js dopplerToken))
  then throw (Error missing_token_message)
  else
    let* secretsResponse :=
      secrets_list (default EmptyString dopplerToken)
                   "home_automation" "prd" in
    (* secretsResponse.secrets || {} *)
    let secrets := default ∅ (secrets secretsResponse) in
    let clientId := computed_of secrets "GOOGLE_CLIENT_ID" in
    let clientSecret := computed_of secrets "GOOGLE_CLIENT_SECRET" in
    let redirectUri := computed_of secrets "GOOGLE_REDIRECT_URI" in
    if negb (truthy (to_js clientId))
       || negb (truthy (to_js clientSecret))
       || negb (truthy (to_js redirectUri))
    then throw (Error not_found_message)
    else
      let* verbose := not_test_mode in
      when verbose (emit (StderrWrite notice)) ;;
      ret {| client_id := to_js clientId;
             client_secret := to_js clientSecret;
             redirect_uris := JArr [to_js redirectUri] |}.

Definition loadCredentialsWithFallback : Js OAuthCredentials :=
  try_catch try_body
    (fun error =>
       throw (Error (failure_prefix +:+ describe error))).

Definition loadCredentials : Js MinimalCredential :=
  loadCredentialsUsing loadCredentialsWithFallback.

Definition initializeOAuth2Client : Js OAuth2Client :=
  initializeOAuth2ClientUsing loadCredentialsWithFallback.

End SdkRevision.

(** ** The specification's words *)

(** The environment variables of the environment reader. *)
Definition env_names : list string :=
  ["GOOGLE_CLIENT_ID"; "GOOGLE_CLIENT_SECRET"; "GOOGLE_REDIRECT_URI"].

(** A variable is present and non-empty. *)
Definition env_set (w : World) (name : string) : bool :=
  match env w !! name with
  | Some s => negb (is_empty s)
  | None => false
  end.

(** The data-model invariant of a credential record. *)
Definition nonempty_string (v : jsval) : bool :=
  match v with JStr s => negb (is_empty s) | _ => false end.

Definition has_entry (v : jsval) : bool :=
  match v with JArr (_ :: _) => true | _ => false end.

Definition valid_record (r : OAuthCredentials) : bool :=
  nonempty_string (client_id r) && nonempty_string (client_secret r)
  && has_entry (redirect_uris r).

(** The value of [v.k] when the read does not throw. *)
Definition field (v : jsval) (k : string) : jsval :=
  match get_prop v k with Returned x => x | Threw _ => JUndefined end.

(** The document has an own property [k]. *)
Definition has_field (doc : jsval) (k : string) : bool :=
  match doc with
  | JObj props => bool_decide (is_Some (own_prop props k))
  | _ => false
  end.



(** ** What a call touches *)



(** What was written to [stderr], in order. *)
Fixpoint stderr_output (tr : list Event) : list string :=
  match tr with
  | [] => []
  | StderrWrite text :: rest => text :: stderr_output rest
  | _ :: rest => stderr_output rest
  end.

Definition is_returned {A} (o : Outcome A) : bool :=
  match o with Returned _ => true | Threw _ => false end.

(** [process.env.NODE_ENV === 'test'] *)
Definition test_mode (w : World) : bool :=
  bool_decide (env w !! "NODE_ENV" = Some "test").

(** The world after [process.env[name] = value]. *)
Definition with_env (name value : string) (w : World) : World :=
  {| env := <[name := value]> (env w);
     keys_file := keys_file w;
     doppler_list := doppler_list w |}.

(** The shape test of the file reader, lines 9 and 13, on a parsed
    document. *)
Definition accepts (keys : jsval) : bool :=
  truthy (field keys "installed")
  || truthy (field keys "client_id") && truthy (field keys "client_secret").

(** The secret [name] is in the response with a non-empty [computed]. *)
Definition secret_set (resp : SecretsResponse) (name : string) : bool :=
  match default ∅ (secrets resp) !! name ≫= computed with
  | Some s => negb (is_empty s)
  | None => false
  end.

(** ** Sample documents and worlds *)

(** A world whose key file parses to [doc]. *)
Definition world_of_keys (doc : jsval) : World :=
  {| env := ∅;
     keys_file := Returned doc;
     doppler_list := fun _ _ _ => Threw (Error "fetch failed") |}.

Definition installed_obj : jsval :=
  JObj [("client_id", JStr "id1"); ("client_secret", JStr "secret1");
        ("redirect_uris", JArr [JStr "http://x/cb"])].

(** [{"installed": {...}}] *)
Definition installed_doc : jsval := JObj [("installed", installed_obj)].

(** [{"client_id": "id1", "client_secret": "secret1"}] *)
Definition flat_doc : jsval :=
  JObj [("client_id", JStr "id1"); ("client_secret", JStr "secret1")].

(** [{"installed": null}] *)
Definition null_installed_doc : jsval := JObj [("installed", JNull)].

(** [{"installed": null, "client_id": "id1", "client_secret": "secret1"}] *)
Definition null_installed_flat_doc : jsval :=
  JObj [("installed", JNull);
        ("client_id", JStr "id1"); ("client_secret", JStr "secret1")].

(** [{"client_id": "id1", "client_secret": "secret1", "redirect_uris": null}] *)
Definition null_uris_doc : jsval :=
  JObj [("client_id", JStr "id1"); ("client_secret", JStr "secret1");
        ("redirect_uris", JNull)].

(** [{"installed": {"client_id": "", "client_secret": "secret1",
                    "redirect_uris": []}}] *)
Definition hollow_installed_doc : jsval :=
  JObj [("installed",
         JObj [("client_id", JStr EmptyString);
               ("client_secret", JStr "secret1");
               ("redirect_uris", JArr [])])].

(** [{"client_id": "", "client_secret": "secret1"}] *)
Definition empty_id_doc : list (string * jsval) :=
  [("client_id", JStr EmptyString); ("client_secret", JStr "secret1")].

Definition no_such_file : Thrown :=
  ErrorObject SystemError
    "ENOENT: no such file or directory, open 'gcp-oauth.keys.json'".

(** Only the three environment variables are there. *)
Definition env_only_world : World :=
  {| env := <["GOOGLE_CLIENT_ID" := "id1"]>
            (<["GOOGLE_CLIENT_SECRET" := "secret1"]>
             (<["GOOGLE_REDIRECT_URI" := "http://x/cb"]> ∅));
     keys_file := Threw no_such_file;
     doppler_list := fun _ _ _ => Threw (Error "fetch failed") |}.

(** A token is there, the service is unreachable, the key file is [{}]. *)
Definition service_down_world : World :=
  {| env := <["DOPPLER_TOKEN" := "dp.st.prd.token"]> ∅;
     keys_file := Returned (JObj []);
     doppler_list := fun _ _ _ => Threw (Error "fetch failed") |}.

(** The same, with a usable key file. *)
Definition service_down_world' : World :=
  {| env := <["DOPPLER_TOKEN" := "dp.st.prd.token"]> ∅;
     keys_file := Returned installed_doc;
     doppler_list := fun _ _ _ => Threw (Error "fetch failed") |}.

(** A token is there and the service holds the three secrets. *)
Definition service_up_world : World :=
  {| env := <["DOPPLER_TOKEN" := "dp.st.prd.token"]> ∅;
     keys_file := Threw no_such_file;
     doppler_list := fun _ _ _ =>
       Returned {| secrets := Some
         (<["GOOGLE_CLIENT_ID" := {| computed := Some "id1" |}]>
          (<["GOOGLE_CLIENT_SECRET" := {| computed := Some "secret1" |}]>
           (<["GOOGLE_REDIRECT_URI" := {| computed := Some "http://x/cb" |}]>
            ∅))) |} |}.






Definition sample_record : OAuthCredentials :=
  {| client_id := JStr "id1"; client_secret := JStr "secret1";
     redirect_uris := JArr [JStr "http://x/cb"] |}.

(** ** Proof steps *)

(** Unfolds a call down to the world reads. *)
Ltac run_js :=
  unfold result, trace, run, bind, try_catch, lift, ret, throw, when, emit,
    getenv, readKeys, secrets_list, not_test_mode; simpl.

(** ** Runs on the sample worlds *)

Example first_unit_ascii : first_unit "http://x/cb" = "h".
Proof. reflexivity. Qed.

Example first_unit_two_bytes : first_unit "éa" = "é".
Proof. reflexivity. Qed.

Example first_unit_three_bytes : first_unit "€a" = "€".
Proof. reflexivity. Qed.

(** U+1F600, bytes F0 9F 98 80: the first unit is the high surrogate
    D83D, bytes ED A0 BD. *)
Example first_unit_four_bytes :
  first_unit (String (ascii_of_N 0xF0) (String (ascii_of_N 0x9F)
               (String (ascii_of_N 0x98) (String (ascii_of_N 0x80) "a"))))
  = String (ascii_of_N 0xED) (String (ascii_of_N 0xA0)
      (String (ascii_of_N 0xBD) EmptyString)).
Proof. reflexivity. Qed.

Example env_scenario :
  run EnvRevision.loadCredentials env_only_world
  = ([StderrWrite EnvRevision.notice],
     Returned {| min_client_id := JStr "id1";
                 min_client_secret := JStr "secret1" |}).
Proof. vm_compute. reflexivity. Qed.

Example sdk_scenario :
  run SdkRevision.loadCredentialsWithFallback service_up_world
  = ([SdkList "dp.st.prd.token" "home_automation" "prd";
      StderrWrite SdkRevision.notice],
     Returned sample_record).
Proof. vm_compute. reflexivity. Qed.

Example sdk_down_scenario :
  run SdkRevision.loadCredentials service_down_world
  = ([SdkList "dp.st.prd.token" "home_automation" "prd"],
     Threw (Error
       "Error loading credentials: Failed to load OAuth credentials from Doppler: fetch failed")).
Proof. vm_compute. reflexivity. Qed.

(** ** Lemmas on message text *)

Lemma starts_with_append (p s : string) : starts_with (p +:+ s) p = true.
Proof.
  induction p as [|c p IH]; simpl; [done|].
  by rewrite Ascii.eqb_refl.
Qed.

Lemma mentions_start (msg part : string) :
  starts_with msg part = true -> mentions msg part = true.
Proof. intros H. destruct msg; simpl; rewrite H; reflexivity. Qed.

Lemma mentions_append (a part b : string) :
  mentions (a +:+ (part +:+ b)) part = true.
Proof.
  induction a as [|c a IH].
  - change (mentions (part +:+ b) part = true).
    apply mentions_start, starts_with_append.
  - simpl. rewrite IH. apply orb_true_r.
Qed.

Lemma mentions_suffix (a part : string) : mentions (a +:+ part) part = true.
Proof.
  replace part with (part +:+ EmptyString) at 1.
  - apply mentions_append.
  - induction part as [|c p IH]; [done|].
    change (String c (p +:+ EmptyString) = String c p). by rewrite IH.
Qed.

Lemma starts_with_inv (msg part : string) :
  starts_with msg part = true -> exists b, msg = part +:+ b.
Proof.
  revert msg. induction part as [|c part IH]; intros msg H.
  - by exists msg.
  - destruct msg as [|d msg]; simpl in H; [done|].
    apply andb_true_iff in H as [Hc H]. apply Ascii.eqb_eq in Hc as ->.
    destruct (IH msg H) as [b ->]. by exists b.
Qed.

(** [mentions] is the substring test. *)
Lemma mentions_spec (msg part : string) :
  mentions msg part = true <-> exists a b, msg = a +:+ (part +:+ b).
Proof.
  split.
  - induction msg as [|c msg IH]; simpl; intros H.
    + rewrite orb_false_r in H. destruct (starts_with_inv _ _ H) as [b ->].
      by exists EmptyString, b.
    + apply orb_true_iff in H as [H|H].
      * destruct (starts_with_inv _ _ H) as [b ->]. by exists EmptyString, b.
      * destruct (IH H) as (a & b & ->). by exists (String c a), b.
  - intros (a & b & ->). apply mentions_append.
Qed.

Lemma env_message_names_all :
  Forall (fun name => mentions EnvRevision.not_found_message name = true)
         env_names.
Proof. repeat constructor; vm_compute; reflexivity. Qed.

Lemma invalid_format_names_shapes :
  mentions invalid_format_message
           (String dquote "installed" +:+ String dquote " object") = true /\
  mentions invalid_format_message "direct client_id/client_secret fields"
  = true.
Proof. split; vm_compute; reflexivity. Qed.

(** ** How the readers run *)

Lemma truthy_to_js (o : option string) :
  truthy (to_js o) = true <-> exists s, o = Some s /\ s <> EmptyString.
Proof.
  destruct o as [[|c s]|]; simpl; split; try done.
  - intros (s & [= <-] & Hs). done.
  - intros _. by eexists.
  - intros (s & [=] & _).
Qed.

(** How the SDK revision runs, by the token and the service's answer. *)
Lemma sdk_run_no_token (w : World) :
  env_set w "DOPPLER_TOKEN" = false ->
  run SdkRevision.try_body w
  = ([], Threw (Error SdkRevision.missing_token_message)).
Proof.
  unfold env_set, SdkRevision.try_body. run_js.
  destruct (env w !! "DOPPLER_TOKEN") as [[|c t]|]; simpl; done.
Qed.

Lemma sdk_run_service_throws (w : World) (token : string) (e0 : Thrown) :
  env w !! "DOPPLER_TOKEN" = Some token -> token <> EmptyString ->
  doppler_list w token "home_automation" "prd" = Threw e0 ->
  run SdkRevision.try_body w
  = ([SdkList token "home_automation" "prd"], Threw e0).
Proof.
  intros Ht Hne Hd. unfold SdkRevision.try_body. run_js.
  rewrite Ht. destruct token as [|c t]; [done|]. simpl. by rewrite Hd.
Qed.

Lemma sdk_wraps (w : World) (tr : list Event) (o : Outcome OAuthCredentials) :
  run SdkRevision.try_body w = (tr, o) ->
  run SdkRevision.loadCredentialsWithFallback w
  = (tr, match o with
         | Returned r => Returned r
         | Threw e0 =>
             Threw (Error (SdkRevision.failure_prefix +:+ describe e0))
         end).
Proof.
  unfold SdkRevision.loadCredentialsWithFallback, run, try_catch, throw.
  intros ->. by destruct o.
Qed.

Lemma truthy_readable (v : jsval) (k : string) :
  truthy v = true -> get_prop v k = Returned (field v k).
Proof. unfold field. by destruct v. Qed.

Lemma readable_any (v x : jsval) (k k' : string) :
  get_prop v k = Returned x -> get_prop v k' = Returned (field v k').
Proof. unfold field. by destruct v. Qed.

Lemma absent_field_undefined (doc : jsval) (k : string) :
  has_field doc k = false -> field doc k = JUndefined.
Proof.
  unfold has_field, field.
  destruct doc as [| | | | | |props]; simpl; try done.
  by destruct (own_prop props k).
Qed.

(** The three ways the file reader ends once the document is parsed. *)
Lemma file_run_installed (w : World) (keys installed : jsval) :
  keys_file w = Returned keys ->
  get_prop keys "installed" = Returned installed ->
  truthy installed = true ->
  run loadCredentialsFromFile w
  = ([ReadKeysFile],
     Returned {| client_id := field installed "client_id";
                 client_secret := field installed "client_secret";
                 redirect_uris := field installed "redirect_uris" |}).
Proof.
  intros Hk Hi Ht. unfold loadCredentialsFromFile. run_js.
  rewrite Hk, Hi, Ht. by rewrite !(truthy_readable installed) by done.
Qed.

Lemma file_run_flat (w : World) (keys installed : jsval) :
  keys_file w = Returned keys ->
  get_prop keys "installed" = Returned installed ->
  truthy installed = false ->
  truthy (field keys "client_id") = true ->
  truthy (field keys "client_secret") = true ->
  run loadCredentialsFromFile w
  = ([ReadKeysFile],
     Returned {| client_id := field keys "client_id";
                 client_secret := field keys "client_secret";
                 redirect_uris :=
                   js_or (field keys "redirect_uris") default_redirect_uris |}).
Proof.
  intros Hk Hi Ht Hc Hs. unfold loadCredentialsFromFile. run_js.
  rewrite Hk, Hi, Ht.
  rewrite !(readable_any keys installed "installed") by done.
  by rewrite Hc, Hs.
Qed.

Lemma file_run_invalid (w : World) (keys installed : jsval) :
  keys_file w = Returned keys ->
  get_prop keys "installed" = Returned installed ->
  truthy installed = false ->
  truthy (field keys "client_id") = false
  \/ truthy (field keys "client_secret") = false ->
  run loadCredentialsFromFile w
  = ([ReadKeysFile], Threw (Error invalid_format_message)).
Proof.
  intros Hk Hi Ht Hor. unfold loadCredentialsFromFile. run_js.
  rewrite Hk, Hi, Ht.
  rewrite !(readable_any keys installed "installed") by done.
  destruct (truthy (field keys "client_id")) eqn:Hc;
    [destruct Hor as [|Hs]; [done | by rewrite Hs] | by rewrite Hc].
Qed.

(** Every document other than [null] that has neither shape is rejected
    with the invalid-format message. *)
Lemma unrecognized_shape_invalid_format (w : World) (keys : jsval) :
  keys_file w = Returned keys ->
  keys <> JNull -> keys <> JUndefined ->
  has_field keys "installed" = false ->
  has_field keys "client_id" && has_field keys "client_secret" = false ->
  result loadCredentialsFromFile w = Threw (Error invalid_format_message).
Proof.
  intros Hk Hn Hu Hi Hcs. unfold result.
  rewrite (file_run_invalid w keys JUndefined Hk); [done| |done|].
  - rewrite <- (absent_field_undefined _ _ Hi). unfold field.
    by destruct keys.
  - apply andb_false_iff in Hcs as [H|H];
      rewrite (absent_field_undefined _ _ H); auto.
Qed.

Lemma env_record_valid (w : World) (r : OAuthCredentials) :
  result EnvRevision.loadCredentialsWithFallback w = Returned r ->
  valid_record r = true.
Proof.
  unfold EnvRevision.loadCredentialsWithFallback. run_js.
  destruct (env w !! "GOOGLE_CLIENT_ID") as [[|c1 i]|]; simpl; try done.
  destruct (env w !! "GOOGLE_CLIENT_SECRET") as [[|c2 s]|]; simpl; try done.
  destruct (env w !! "GOOGLE_REDIRECT_URI") as [[|c3 u]|]; simpl; try done.
  destruct (bool_decide _); simpl; by intros [= <-].
Qed.

Lemma sdk_record_valid (w : World) (r : OAuthCredentials) :
  result SdkRevision.loadCredentialsWithFallback w = Returned r ->
  valid_record r = true.
Proof.
  unfold result.
  destruct (run SdkRevision.try_body w) as [tr o] eqn:Hrun.
  rewrite (sdk_wraps _ _ _ Hrun). simpl.
  destruct o as [r'|e0]; [|done]. intros [= ->]. revert Hrun.
  unfold SdkRevision.try_body. run_js.
  destruct (env w !! "DOPPLER_TOKEN") as [[|c t]|]; simpl; try done.
  destruct (doppler_list w _ _ _) as [resp|e]; [|done].
  destruct (SdkRevision.computed_of _ "GOOGLE_CLIENT_ID")
    as [[|c1 i]|]; simpl; try done.
  destruct (SdkRevision.computed_of _ "GOOGLE_CLIENT_SECRET")
    as [[|c2 s]|]; simpl; try done.
  destruct (SdkRevision.computed_of _ "GOOGLE_REDIRECT_URI")
    as [[|c3 u]|]; simpl; try done.
  destruct (bool_decide _); simpl; by intros [= _ <-].
Qed.

Lemma flat_record_truthy
    (w : World) (r : OAuthCredentials) (keys installed : jsval) :
  result loadCredentialsFromFile w = Returned r ->
  keys_file w = Returned keys ->
  get_prop keys "installed" = Returned installed ->
  truthy installed = false ->
  truthy (client_id r) = true /\ truthy (client_secret r) = true /\
  truthy (redirect_uris r) = true.
Proof.
  intros Hr Hk Hi Ht. revert Hr. unfold result.
  destruct (truthy (field keys "client_id")) eqn:Hc;
    [destruct (truthy (field keys "client_secret")) eqn:Hs|].
  - rewrite (file_run_flat w keys installed Hk Hi Ht Hc Hs). simpl.
    intros [= <-]. simpl. rewrite Hc, Hs. repeat split.
    unfold js_or. by destruct (truthy (field keys "redirect_uris")) eqn:Hu.
  - rewrite (file_run_invalid w keys installed Hk Hi Ht); [done | auto].
  - rewrite (file_run_invalid w keys installed Hk Hi Ht); [done | auto].
Qed.

Lemma valid_record_complete (r : OAuthCredentials) :
  valid_record r = true ->
  truthy (client_id r) = true /\ truthy (client_secret r) = true.
Proof.
  unfold valid_record. intros H.
  apply andb_true_iff in H as [H _]. apply andb_true_iff in H as [Hc Hs].
  split; [by destruct (client_id r) | by destruct (client_secret r)].
Qed.

(** With the resolver of either revision the completeness check of
    [loadCredentials] never fires: whenever the resolver returns,
    [loadCredentials] returns the pair of its first two fields. *)
Lemma loadCredentials_passes_resolved
    (resolver : Js OAuthCredentials) (w : World) (r : OAuthCredentials) :
  resolver = EnvRevision.loadCredentialsWithFallback
  \/ resolver = SdkRevision.loadCredentialsWithFallback ->
  result resolver w = Returned r ->
  result (loadCredentialsUsing resolver) w
  = Returned {| min_client_id := client_id r;
                min_client_secret := client_secret r |}.
Proof.
  intros Hres Hr.
  assert (Hv : valid_record r = true).
  { destruct Hres as [-> | ->];
      [by apply (env_record_valid w) | by apply (sdk_record_valid w)]. }
  apply valid_record_complete in Hv as [Hc Hs].
  revert Hr. unfold result, loadCredentialsUsing, run, try_catch, bind.
  destruct (resolver w []) as [tr [r'|e]]; simpl; [|done].
  intros [= ->]. by rewrite Hc, Hs.
Qed.

Lemma loadCredentialsUsing_run (resolver : Js OAuthCredentials) (w : World) :
  run (loadCredentialsUsing resolver) w
  = ((run resolver w).1,
     match (run resolver w).2 with
     | Returned r =>
         if truthy (client_id r) && truthy (client_secret r)
         then Returned {| min_client_id := client_id r;
                          min_client_secret := client_secret r |}
         else Threw (Error ("Error loading credentials: " +:+
                            missing_field_message))
     | Threw e => Threw (Error ("Error loading credentials: " +:+ describe e))
     end).
Proof.
  unfold loadCredentialsUsing, run, try_catch, bind, throw, ret.
  destruct (resolver w []) as [tr [r|e]]; simpl; [|done].
  by destruct (truthy (client_id r)), (truthy (client_secret r)).
Qed.

Lemma env_resolver_result (w : World) :
  result EnvRevision.loadCredentialsWithFallback w
  = if forallb (env_set w) env_names
    then Returned {| client_id := to_js (env w !! "GOOGLE_CLIENT_ID");
                     client_secret := to_js (env w !! "GOOGLE_CLIENT_SECRET");
                     redirect_uris :=
                       JArr [to_js (env w !! "GOOGLE_REDIRECT_URI")] |}
    else Threw (Error EnvRevision.not_found_message).
Proof.
  unfold EnvRevision.loadCredentialsWithFallback, env_names, env_set.
  run_js.
  destruct (env w !! "GOOGLE_CLIENT_ID") as [[|c1 i]|]; simpl; try done.
  destruct (env w !! "GOOGLE_CLIENT_SECRET") as [[|c2 s]|]; simpl; try done.
  destruct (env w !! "GOOGLE_REDIRECT_URI") as [[|c3 u]|]; simpl; try done.
  by destruct (bool_decide _).
Qed.

Lemma sdk_resolver_result (w : World) (token : string) (resp : SecretsResponse) :
  env w !! "DOPPLER_TOKEN" = Some token -> token <> EmptyString ->
  doppler_list w token "home_automation" "prd" = Returned resp ->
  result SdkRevision.try_body w
  = if forallb (secret_set resp) env_names
    then Returned
           {| client_id :=
                to_js (SdkRevision.computed_of (default ∅ (secrets resp))
                         "GOOGLE_CLIENT_ID");
              client_secret :=
                to_js (SdkRevision.computed_of (default ∅ (secrets resp))
                         "GOOGLE_CLIENT_SECRET");
              redirect_uris :=
                JArr [to_js (SdkRevision.computed_of
                               (default ∅ (secrets resp))
                               "GOOGLE_REDIRECT_URI")] |}
    else Threw (Error SdkRevision.not_found_message).
Proof.
  intros Ht Hne Hd.
  unfold SdkRevision.try_body, env_names, secret_set. run_js.
  rewrite Ht. destruct token as [|c t]; [done|]. simpl. rewrite Hd.
  unfold SdkRevision.computed_of.
  destruct (default ∅ (secrets resp) !! "GOOGLE_CLIENT_ID" ≫= computed)
    as [[|c1 i]|]; simpl; try done.
  destruct (default ∅ (secrets resp) !! "GOOGLE_CLIENT_SECRET" ≫= computed)
    as [[|c2 s]|]; simpl; try done.
  destruct (default ∅ (secrets resp) !! "GOOGLE_REDIRECT_URI" ≫= computed)
    as [[|c3 u]|]; simpl; try done.
  by destruct (bool_decide _).
Qed.





(** ** The resolver *)







(** ** The data-model invariant *)

(** C3, as the code has it: a record returned by the environment reader
    or by the remote reader satisfies the invariant; a record the file
    reader returns for a flat document (no truthy [installed]) has truthy
    [client_id], [client_secret] and [redirect_uris]. *)
Theorem produced_record_invariant (w : World) (r : OAuthCredentials) :
  (result EnvRevision.loadCredentialsWithFallback w = Returned r \/
   result SdkRevision.loadCredentialsWithFallback w = Returned r ->
   valid_record r = true) /\
  (result loadCredentialsFromFile w = Returned r ->
   forall keys installed,
     keys_file w = Returned keys ->
     get_prop keys "installed" = Returned installed ->
     truthy installed = false ->
     truthy (client_id r) = true /\ truthy (client_secret r) = true /\
     truthy (redirect_uris r) = true).
Proof.
  split.
  - intros [H|H]; [by apply (env_record_valid w) | by apply (sdk_record_valid w)].
  - intros Hr keys installed Hk Hi Ht.
    by apply (flat_record_truthy w r keys installed).
Qed.

(** C3 counterexample: the file reader returns the fields of an
    [installed] object as they are: here an empty [client_id] and an empty
    [redirect_uris]. *)
Lemma installed_record_breaks_invariant :
  result loadCredentialsFromFile (world_of_keys hollow_installed_doc)
  = Returned {| client_id := JStr EmptyString;
                client_secret := JStr "secret1";
                redirect_uris := JArr [] |} /\
  valid_record {| client_id := JStr EmptyString;
                  client_secret := JStr "secret1";
                  redirect_uris := JArr [] |} = false.
Proof. split; vm_compute; reflexivity. Qed.

Lemma produced_record_invariant_witness :
  valid_record sample_record = true /\
  (truthy (JStr "id1") = true /\ truthy (JStr "secret1") = true /\
   truthy default_redirect_uris = true).
Proof.
  split.
  - apply (proj1 (produced_record_invariant env_only_world sample_record)).
    left. vm_compute. reflexivity.
  - apply (proj2 (produced_record_invariant (world_of_keys flat_doc)
                    {| client_id := JStr "id1";
                       client_secret := JStr "secret1";
                       redirect_uris := default_redirect_uris |})
             ltac:(vm_compute; reflexivity) flat_doc JUndefined);
      reflexivity.
Defined.

(** ** The environment reader *)

(** C4: the environment reader returns exactly when the three variables
    are present and non-empty, and then the record holds the three values,
    [redirect_uris] being the one-element list of the redirect-URI value;
    it throws exactly when one of them is missing or empty, and then the
    message names every missing variable. *)
Theorem env_reader_contract (w : World) :
  match result EnvRevision.loadCredentialsWithFallback w with
  | Returned r =>
      Forall (fun name => env_set w name = true) env_names /\
      exists i s u,
        env w !! "GOOGLE_CLIENT_ID" = Some i /\
        env w !! "GOOGLE_CLIENT_SECRET" = Some s /\
        env w !! "GOOGLE_REDIRECT_URI" = Some u /\
        r = {| client_id := JStr i; client_secret := JStr s;
               redirect_uris := JArr [JStr u] |}
  | Threw e =>
      Exists (fun name => env_set w name = false) env_names /\
      exists msg,
        e = Error msg /\
        Forall (fun name => env_set w name = false ->
                            mentions msg name = true) env_names
  end.
Proof.
  assert (Hfail :
    exists msg, Error EnvRevision.not_found_message = Error msg /\
      Forall (fun name => env_set w name = false -> mentions msg name = true)
             env_names).
  { eexists; split; [reflexivity|].
    eapply Forall_impl; [apply env_message_names_all | auto]. }
  unfold EnvRevision.loadCredentialsWithFallback. run_js.
  destruct (env w !! "GOOGLE_CLIENT_ID") as [[|c1 i]|] eqn:Hi; simpl;
    try (split; [apply Exists_cons_hd; unfold env_set; by rewrite Hi
                | exact Hfail]).
  destruct (env w !! "GOOGLE_CLIENT_SECRET") as [[|c2 s]|] eqn:Hs; simpl;
    try (split; [apply Exists_cons_tl, Exists_cons_hd;
                 unfold env_set; by rewrite Hs
                | exact Hfail]).
  destruct (env w !! "GOOGLE_REDIRECT_URI") as [[|c3 u]|] eqn:Hu; simpl;
    try (split; [do 2 apply Exists_cons_tl; apply Exists_cons_hd;
                 unfold env_set; by rewrite Hu
                | exact Hfail]).
  destruct (bool_decide _); simpl.
  all: split; [repeat constructor; unfold env_set; by rewrite ?Hi, ?Hs, ?Hu
              | by exists (String c1 i), (String c2 s), (String c3 u)].
Qed.

(** ** The remote secrets reader *)

(** C5: every failure of the remote reader leaves it as a plain Error
    whose message is the reader's prefix followed by the reason: without a
    token the reason is the missing-token message and the service is not
    called; when the SDK call throws, the reason is what was thrown, as its
    message; nothing else ever leaves the reader. *)
Theorem remote_reader_failures_normalized (w : World) :
  (env_set w "DOPPLER_TOKEN" = false ->
   run SdkRevision.loadCredentialsWithFallback w
   = ([], Threw (Error (SdkRevision.failure_prefix +:+
                        SdkRevision.missing_token_message)))) /\
  (forall token e0,
     env w !! "DOPPLER_TOKEN" = Some token -> token <> EmptyString ->
     doppler_list w token "home_automation" "prd" = Threw e0 ->
     run SdkRevision.loadCredentialsWithFallback w
     = ([SdkList token "home_automation" "prd"],
        Threw (Error (SdkRevision.failure_prefix +:+ describe e0))) /\
     mentions (SdkRevision.failure_prefix +:+ describe e0) (describe e0)
     = true) /\
  (forall e,
     result SdkRevision.loadCredentialsWithFallback w = Threw e ->
     exists reason, e = Error (SdkRevision.failure_prefix +:+ reason)).
Proof.
  split; [|split].
  - intros H. by rewrite (sdk_wraps _ _ _ (sdk_run_no_token w H)).
  - intros token e0 Ht Hne Hd.
    rewrite (sdk_wraps _ _ _ (sdk_run_service_throws w token e0 Ht Hne Hd)).
    split; [done | apply mentions_suffix].
  - intros e. unfold result.
    destruct (run SdkRevision.try_body w) as [tr o] eqn:Hrun.
    rewrite (sdk_wraps _ _ _ Hrun). simpl.
    destruct o as [r|e0]; [done|]. intros [= <-]. by eexists.
Qed.

Lemma remote_reader_failures_normalized_witness :
  run SdkRevision.loadCredentialsWithFallback env_only_world
  = ([], Threw (Error (SdkRevision.failure_prefix +:+
                       SdkRevision.missing_token_message))) /\
  (run SdkRevision.loadCredentialsWithFallback service_down_world
   = ([SdkList "dp.st.prd.token" "home_automation" "prd"],
      Threw (Error (SdkRevision.failure_prefix +:+ "fetch failed"))) /\
   mentions (SdkRevision.failure_prefix +:+ "fetch failed") "fetch failed"
   = true) /\
  exists reason,
    Error (SdkRevision.failure_prefix +:+ "fetch failed")
    = Error (SdkRevision.failure_prefix +:+ reason).
Proof.
  split; [|split].
  - apply (proj1 (remote_reader_failures_normalized env_only_world)).
    vm_compute. reflexivity.
  - apply (proj1 (proj2 (remote_reader_failures_normalized
                           service_down_world))
             "dp.st.prd.token" (Error "fetch failed")).
    + vm_compute. reflexivity.
    + discriminate.
    + reflexivity.
  - apply (proj2 (proj2 (remote_reader_failures_normalized
                           service_down_world))).
    vm_compute. reflexivity.
Defined.

(** ** The file reader *)

(** C6, as the code has it: when the document's [installed] property is
    truthy (every object is), the file reader returns the record whose
    three fields are what reading [client_id], [client_secret] and
    [redirect_uris] from it gives, [undefined] for a field that is not
    there; nothing is defaulted or checked. *)
Theorem installed_shape_verbatim (w : World) (keys installed : jsval) :
  keys_file w = Returned keys ->
  get_prop keys "installed" = Returned installed ->
  truthy installed = true ->
  exists r,
    result loadCredentialsFromFile w = Returned r /\
    get_prop installed "client_id" = Returned (client_id r) /\
    get_prop installed "client_secret" = Returned (client_secret r) /\
    get_prop installed "redirect_uris" = Returned (redirect_uris r).
Proof.
  intros Hk Hi Ht. eexists. unfold result.
  rewrite (file_run_installed w keys installed Hk Hi Ht). simpl.
  split; [reflexivity|]. by rewrite !(truthy_readable installed).
Qed.

(** C6 counterexample: a document with an [installed] field that is
    [null] is not read as the installed shape: alone it is rejected, and
    next to top-level credentials the record comes from those. *)
Lemma null_installed_not_installed_shape :
  has_field null_installed_doc "installed" = true /\
  result loadCredentialsFromFile (world_of_keys null_installed_doc)
  = Threw (Error invalid_format_message) /\
  has_field null_installed_flat_doc "installed" = true /\
  result loadCredentialsFromFile (world_of_keys null_installed_flat_doc)
  = Returned {| client_id := JStr "id1"; client_secret := JStr "secret1";
                redirect_uris := default_redirect_uris |}.
Proof. repeat split; vm_compute; reflexivity. Qed.

Lemma installed_shape_verbatim_witness :
  exists r,
    result loadCredentialsFromFile (world_of_keys installed_doc)
    = Returned r /\
    get_prop installed_obj "client_id" = Returned (client_id r) /\
    get_prop installed_obj "client_secret" = Returned (client_secret r) /\
    get_prop installed_obj "redirect_uris" = Returned (redirect_uris r).
Proof.
  apply (installed_shape_verbatim (world_of_keys installed_doc)
           installed_doc installed_obj); reflexivity.
Defined.

(** C7, as the code has it: for a document whose [installed] is absent or
    falsy and whose top-level [client_id] and [client_secret] are truthy,
    the file reader returns these two unchanged; [redirect_uris] is passed
    through when it is truthy and is the localhost default when it is
    absent or falsy. *)
Theorem flat_shape_redirect_default (w : World) (keys installed : jsval) :
  keys_file w = Returned keys ->
  get_prop keys "installed" = Returned installed ->
  truthy installed = false ->
  truthy (field keys "client_id") = true ->
  truthy (field keys "client_secret") = true ->
  exists r,
    result loadCredentialsFromFile w = Returned r /\
    client_id r = field keys "client_id" /\
    client_secret r = field keys "client_secret" /\
    (has_field keys "redirect_uris" = false ->
     redirect_uris r = JArr [JStr "http://localhost:3000/oauth2callback"]) /\
    (truthy (field keys "redirect_uris") = false ->
     redirect_uris r = JArr [JStr "http://localhost:3000/oauth2callback"]) /\
    (truthy (field keys "redirect_uris") = true ->
     redirect_uris r = field keys "redirect_uris").
Proof.
  intros Hk Hi Ht Hc Hs. eexists. unfold result.
  rewrite (file_run_flat w keys installed Hk Hi Ht Hc Hs). simpl.
  repeat split; unfold js_or.
  - intros Habs. by rewrite (absent_field_undefined _ _ Habs).
  - by intros ->.
  - by intros ->.
Qed.

(** C7 counterexample: a flat document whose [redirect_uris] is present
    and [null] does not get it passed through: the default is returned. *)
Lemma null_redirect_uris_replaced :
  has_field null_uris_doc "redirect_uris" = true /\
  field null_uris_doc "redirect_uris" = JNull /\
  result loadCredentialsFromFile (world_of_keys null_uris_doc)
  = Returned {| client_id := JStr "id1"; client_secret := JStr "secret1";
                redirect_uris :=
                  JArr [JStr "http://localhost:3000/oauth2callback"] |}.
Proof. repeat split; vm_compute; reflexivity. Qed.

Lemma flat_shape_redirect_default_witness :
  exists r,
    result loadCredentialsFromFile (world_of_keys flat_doc) = Returned r /\
    redirect_uris r = JArr [JStr "http://localhost:3000/oauth2callback"].
Proof.
  destruct (flat_shape_redirect_default (world_of_keys flat_doc)
              flat_doc JUndefined) as (r & Hr & _ & _ & Habsent & _);
    try reflexivity.
  exists r. split; [exact Hr | apply Habsent; reflexivity].
Defined.

(** C8 at the document [null]: it has neither shape, and reading
    [keys.installed] throws a TypeError before the shape test is reached,
    so the failure is not the invalid-format Error. *)
Theorem null_document_type_error :
  has_field JNull "installed" = false /\
  has_field JNull "client_id" && has_field JNull "client_secret" = false /\
  run loadCredentialsFromFile (world_of_keys JNull)
  = ([ReadKeysFile],
     Threw (ErrorObject TypeError
              "Cannot read properties of null (reading 'installed')")) /\
  result loadCredentialsFromFile (world_of_keys JNull)
  <> Threw (Error invalid_format_message).
Proof.
  split; [|split; [|split]]; vm_compute; first [reflexivity | discriminate].
Qed.

(** C10: a flat document (no [installed]) whose [client_id] or
    [client_secret] is the empty string is rejected with the
    invalid-format Error, whose message names both accepted shapes. *)
Theorem empty_flat_field_invalid_format
    (w : World) (props : list (string * jsval)) :
  keys_file w = Returned (JObj props) ->
  own_prop props "installed" = None ->
  own_prop props "client_id" = Some (JStr EmptyString)
  \/ own_prop props "client_secret" = Some (JStr EmptyString) ->
  result loadCredentialsFromFile w = Threw (Error invalid_format_message) /\
  mentions invalid_format_message
           (String dquote "installed" +:+ String dquote " object") = true /\
  mentions invalid_format_message "direct client_id/client_secret fields"
  = true.
Proof.
  intros Hk Hi Hor. split; [|apply invalid_format_names_shapes].
  unfold result.
  rewrite (file_run_invalid w (JObj props) JUndefined Hk); [done| |done|].
  - simpl. by rewrite Hi.
  - unfold field. simpl. destruct Hor as [-> | ->]; auto.
Qed.

Lemma empty_flat_field_invalid_format_witness :
  result loadCredentialsFromFile (world_of_keys (JObj empty_id_doc))
  = Threw (Error invalid_format_message) /\
  mentions invalid_format_message
           (String dquote "installed" +:+ String dquote " object") = true /\
  mentions invalid_format_message "direct client_id/client_secret fields"
  = true.
Proof.
  apply (empty_flat_field_invalid_format (world_of_keys (JObj empty_id_doc))
           empty_id_doc); [reflexivity | reflexivity | left; reflexivity].
Defined.

(** ** The validator *)







(** ** The two entry points over any resolver *)

Lemma initializeOAuth2ClientUsing_run
    (resolver : Js OAuthCredentials) (w : World) :
  run (initializeOAuth2ClientUsing resolver) w
  = ((run resolver w).1,
     match (run resolver w).2 with
     | Returned r =>
         match get_index0 (redirect_uris r) with
         | Returned first =>
             Returned {| clientId := client_id r;
                         clientSecret := client_secret r;
                         redirectUri := first |}
         | Threw e => Threw (Error ("Error loading OAuth keys: " +:+ describe e))
         end
     | Threw e => Threw (Error ("Error loading OAuth keys: " +:+ describe e))
     end).
Proof.
  unfold initializeOAuth2ClientUsing, run, try_catch, bind, throw, ret, lift.
  destruct (resolver w []) as [tr [r|e]]; simpl; [|done].
  by destruct (get_index0 (redirect_uris r)).
Qed.

(** X1: whatever the resolver does, a failure of [loadCredentials] is a
    plain Error whose message is "Error loading credentials: " followed
    by the reason: the message of what the resolver threw, or the
    missing-field message when the resolver returned. *)
Theorem loadCredentials_failure_wrapped
    (resolver : Js OAuthCredentials) (w : World) (e : Thrown) :
  result (loadCredentialsUsing resolver) w = Threw e ->
  exists reason,
    e = Error ("Error loading credentials: " +:+ reason) /\
    ((exists e0, result resolver w = Threw e0 /\ reason = describe e0) \/
     (exists r, result resolver w = Returned r /\
                reason = missing_field_message)).
Proof.
  unfold result. rewrite loadCredentialsUsing_run. simpl.
  destruct (run resolver w).2 as [r|e0].
  - destruct (truthy (client_id r) && truthy (client_secret r)); [done|].
    intros [= <-]. eexists. split; [done|]. right. by exists r.
  - intros [= <-]. eexists. split; [done|]. left. by exists e0.
Qed.

Lemma loadCredentials_failure_wrapped_witness :
  exists reason,
    Error ("Error loading credentials: " +:+ EnvRevision.not_found_message)
    = Error ("Error loading credentials: " +:+ reason) /\
    ((exists e0,
        result EnvRevision.loadCredentialsWithFallback service_down_world
        = Threw e0 /\ reason = describe e0) \/
     (exists r,
        result EnvRevision.loadCredentialsWithFallback service_down_world
        = Returned r /\ reason = missing_field_message)).
Proof.
  apply (loadCredentials_failure_wrapped
           EnvRevision.loadCredentialsWithFallback service_down_world).
  vm_compute. reflexivity.
Defined.

(** X2: whatever the resolver does, a pair that [loadCredentials] returns
    is complete: both fields are truthy, and they are the [client_id] and
    [client_secret] of the record the resolver returned. *)
Theorem loadCredentials_returns_complete
    (resolver : Js OAuthCredentials) (w : World) (m : MinimalCredential) :
  result (loadCredentialsUsing resolver) w = Returned m ->
  truthy (min_client_id m) = true /\ truthy (min_client_secret m) = true /\
  exists r,
    result resolver w = Returned r /\
    min_client_id m = client_id r /\ min_client_secret m = client_secret r.
Proof.
  unfold result. rewrite loadCredentialsUsing_run. simpl.
  destruct (run resolver w).2 as [r|e0]; [|done].
  destruct (truthy (client_id r)) eqn:Hc; [|done].
  destruct (truthy (client_secret r)) eqn:Hs; [|done].
  simpl. intros [= <-]. simpl. repeat split; try done. by exists r.
Qed.

Lemma loadCredentials_returns_complete_witness :
  truthy (JStr "id1") = true /\ truthy (JStr "secret1") = true /\
  exists r,
    result EnvRevision.loadCredentialsWithFallback env_only_world
    = Returned r /\
    JStr "id1" = client_id r /\ JStr "secret1" = client_secret r.
Proof.
  apply (loadCredentials_returns_complete
           EnvRevision.loadCredentialsWithFallback env_only_world
           {| min_client_id := JStr "id1";
              min_client_secret := JStr "secret1" |}).
  vm_compute. reflexivity.
Defined.

(** X3: whatever the resolver does, a failure of [initializeOAuth2Client]
    is a plain Error whose message is "Error loading OAuth keys: "
    followed by the message of what the resolver threw, or of the
    TypeError of reading [redirect_uris[0]] from [null] or [undefined]. *)
Theorem initialize_failure_wrapped
    (resolver : Js OAuthCredentials) (w : World) (e : Thrown) :
  result (initializeOAuth2ClientUsing resolver) w = Threw e ->
  exists reason,
    e = Error ("Error loading OAuth keys: " +:+ reason) /\
    ((exists e0, result resolver w = Threw e0 /\ reason = describe e0) \/
     (exists r, result resolver w = Returned r /\
                truthy (redirect_uris r) = false /\
                get_index0 (redirect_uris r)
                = Threw (ErrorObject TypeError reason))).
Proof.
  unfold result. rewrite initializeOAuth2ClientUsing_run. simpl.
  destruct (run resolver w).2 as [r|e0].
  - destruct (get_index0 (redirect_uris r)) as [u|e1] eqn:Hu; [done|].
    intros [= <-]. eexists. split; [done|]. right. exists r.
    destruct (redirect_uris r) as [| | | |[|c s]| |]; simpl in Hu;
      try done; by injection Hu as <-.
  - intros [= <-]. eexists. split; [done|]. left. by exists e0.
Qed.

Lemma initialize_failure_wrapped_witness :
  exists reason,
    Error "Error loading OAuth keys: Cannot read properties of undefined (reading '0')"
    = Error ("Error loading OAuth keys: " +:+ reason) /\
    ((exists e0,
        result loadCredentialsFromFile (world_of_keys (JObj [("installed", JObj [])]))
        = Threw e0 /\ reason = describe e0) \/
     (exists r,
        result loadCredentialsFromFile (world_of_keys (JObj [("installed", JObj [])]))
        = Returned r /\
        truthy (redirect_uris r) = false /\
        get_index0 (redirect_uris r) = Threw (ErrorObject TypeError reason))).
Proof.
  apply (initialize_failure_wrapped loadCredentialsFromFile
           (world_of_keys (JObj [("installed", JObj [])]))).
  vm_compute. reflexivity.
Defined.

(** X4: [initializeOAuth2Client] has no completeness check: when the
    resolver returns a record whose [redirect_uris] is an array, the
    client is built from the record's [client_id] and [client_secret] as
    they are, empty or not, with the first array element as redirect URI,
    [undefined] for the empty array; no effect is added. *)
Theorem initialize_builds_unchecked
    (resolver : Js OAuthCredentials) (w : World) (tr : list Event)
    (r : OAuthCredentials) (items : list jsval) :
  run resolver w = (tr, Returned r) ->
  redirect_uris r = JArr items ->
  run (initializeOAuth2ClientUsing resolver) w
  = (tr, Returned {| clientId := client_id r;
                     clientSecret := client_secret r;
                     redirectUri := default JUndefined (head items) |}).
Proof.
  intros Hrun Hu. rewrite initializeOAuth2ClientUsing_run, Hrun. simpl.
  by rewrite Hu.
Qed.

Lemma initialize_builds_unchecked_witness :
  run (initializeOAuth2ClientUsing loadCredentialsFromFile)
      (world_of_keys hollow_installed_doc)
  = ([ReadKeysFile],
     Returned {| clientId := JStr EmptyString;
                 clientSecret := JStr "secret1";
                 redirectUri := JUndefined |}).
Proof.
  apply (initialize_builds_unchecked loadCredentialsFromFile
           (world_of_keys hollow_installed_doc) [ReadKeysFile]
           {| client_id := JStr EmptyString;
              client_secret := JStr "secret1";
              redirect_uris := JArr [] |} []); reflexivity.
Defined.

(** ** The entry points at each revision *)

(** X5: at the environment revision [loadCredentials] returns the pair
    of [GOOGLE_CLIENT_ID] and [GOOGLE_CLIENT_SECRET] exactly when all
    three variables are set, the redirect URI too although it is not
    returned; otherwise it fails with the not-found message behind
    "Error loading credentials: ". *)
Theorem env_loadCredentials_contract (w : World) :
  result EnvRevision.loadCredentials w
  = if forallb (env_set w) env_names
    then Returned
           {| min_client_id := to_js (env w !! "GOOGLE_CLIENT_ID");
              min_client_secret := to_js (env w !! "GOOGLE_CLIENT_SECRET") |}
    else Threw (Error ("Error loading credentials: " +:+
                       EnvRevision.not_found_message)).
Proof.
  unfold EnvRevision.loadCredentials, result at 1.
  rewrite loadCredentialsUsing_run. simpl.
  fold (result EnvRevision.loadCredentialsWithFallback w).
  rewrite env_resolver_result. unfold env_names, env_set. simpl.
  destruct (env w !! "GOOGLE_CLIENT_ID") as [[|c1 i]|]; simpl; try done.
  destruct (env w !! "GOOGLE_CLIENT_SECRET") as [[|c2 s]|]; simpl; try done.
  by destruct (env w !! "GOOGLE_REDIRECT_URI") as [[|c3 u]|].
Qed.

(** X6: at the environment revision [initializeOAuth2Client] builds the
    client from the three variables, [GOOGLE_REDIRECT_URI] as its
    redirect URI, exactly when all three are set; otherwise it fails with
    the not-found message behind "Error loading OAuth keys: ". *)
Theorem env_initialize_contract (w : World) :
  result EnvRevision.initializeOAuth2Client w
  = if forallb (env_set w) env_names
    then Returned
           {| clientId := to_js (env w !! "GOOGLE_CLIENT_ID");
              clientSecret := to_js (env w !! "GOOGLE_CLIENT_SECRET");
              redirectUri := to_js (env w !! "GOOGLE_REDIRECT_URI") |}
    else Threw (Error ("Error loading OAuth keys: " +:+
                       EnvRevision.not_found_message)).
Proof.
  pose proof (env_resolver_result w) as Hres.
  set (ok := forallb (env_set w) env_names) in *.
  unfold EnvRevision.initializeOAuth2Client, result in *.
  rewrite initializeOAuth2ClientUsing_run. simpl. rewrite Hres.
  destruct ok; reflexivity.
Qed.

(** X7: at the SDK revision, with a token and an answer of the service,
    the resolver returns the three [computed] values exactly when
    [GOOGLE_CLIENT_ID], [GOOGLE_CLIENT_SECRET] and [GOOGLE_REDIRECT_URI]
    are all in the answer with a non-empty [computed]; an absent
    [secrets] mapping counts as empty.  Otherwise it fails with the
    not-found message behind the reader's prefix. *)
Theorem sdk_reader_contract
    (w : World) (token : string) (resp : SecretsResponse) :
  env w !! "DOPPLER_TOKEN" = Some token -> token <> EmptyString ->
  doppler_list w token "home_automation" "prd" = Returned resp ->
  result SdkRevision.loadCredentialsWithFallback w
  = if forallb (secret_set resp) env_names
    then Returned
           {| client_id :=
                to_js (SdkRevision.computed_of (default ∅ (secrets resp))
                         "GOOGLE_CLIENT_ID");
              client_secret :=
                to_js (SdkRevision.computed_of (default ∅ (secrets resp))
                         "GOOGLE_CLIENT_SECRET");
              redirect_uris :=
                JArr [to_js (SdkRevision.computed_of
                               (default ∅ (secrets resp))
                               "GOOGLE_REDIRECT_URI")] |}
    else Threw (Error (SdkRevision.failure_prefix +:+
                       SdkRevision.not_found_message)).
Proof.
  intros Ht Hne Hd.
  pose proof (sdk_resolver_result w token resp Ht Hne Hd) as Hbody.
  set (ok := forallb (secret_set resp) env_names) in *.
  unfold result in *.
  destruct (run SdkRevision.try_body w) as [tr o] eqn:Hrun.
  rewrite (sdk_wraps _ _ _ Hrun). simpl in *. rewrite Hbody.
  by destruct ok.
Qed.

Lemma sdk_reader_contract_witness :
  result SdkRevision.loadCredentialsWithFallback service_up_world
  = Returned sample_record.
Proof.
  exact (sdk_reader_contract service_up_world "dp.st.prd.token"
           {| secrets := Some
                (<["GOOGLE_CLIENT_ID" := {| computed := Some "id1" |}]>
                 (<["GOOGLE_CLIENT_SECRET" := {| computed := Some "secret1" |}]>
                  (<["GOOGLE_REDIRECT_URI" :=
                       {| computed := Some "http://x/cb" |}]> ∅))) |}
           ltac:(reflexivity) ltac:(discriminate) ltac:(reflexivity)).
Defined.

(** X8: at the SDK revision every failure of [loadCredentials] carries
    both prefixes before the reason thrown inside the resolver's [try]
    block; the missing-field failure never occurs. *)
Theorem sdk_loadCredentials_failure_chain (w : World) (e : Thrown) :
  result SdkRevision.loadCredentials w = Threw e ->
  exists e0,
    result SdkRevision.try_body w = Threw e0 /\
    e = Error ("Error loading credentials: " +:+
               ("Failed to load OAuth credentials from Doppler: " +:+
                describe e0)).
Proof.
  unfold SdkRevision.loadCredentials, result.
  rewrite loadCredentialsUsing_run. simpl.
  destruct (run SdkRevision.loadCredentialsWithFallback w) as [tr o] eqn:Hres.
  destruct (run SdkRevision.try_body w) as [tr0 o0] eqn:Hrun.
  rewrite (sdk_wraps _ _ _ Hrun) in Hres. injection Hres as <- <-. simpl.
  destruct o0 as [r|e0].
  - assert (Hv : valid_record r = true).
    { apply (sdk_record_valid w). unfold result.
      by rewrite (sdk_wraps _ _ _ Hrun). }
    apply valid_record_complete in Hv as [-> ->]. done.
  - intros [= <-]. by exists e0.
Qed.

Lemma sdk_loadCredentials_failure_chain_witness :
  exists e0,
    result SdkRevision.try_body service_down_world = Threw e0 /\
    Error "Error loading credentials: Failed to load OAuth credentials from Doppler: fetch failed"
    = Error ("Error loading credentials: " +:+
             ("Failed to load OAuth credentials from Doppler: " +:+
              describe e0)).
Proof.
  apply (sdk_loadCredentials_failure_chain service_down_world).
  vm_compute. reflexivity.
Defined.

(** ** Effects of the resolver *)

(** X9: the resolver writes its notice to [stderr] once, exactly when it
    returns and [NODE_ENV] is not [test]; a failing call and a call in
    test mode write nothing. *)
Theorem notice_written_on_success (w : World) :
  stderr_output (trace EnvRevision.loadCredentialsWithFallback w)
  = (if is_returned (result EnvRevision.loadCredentialsWithFallback w)
        && negb (test_mode w)
     then [EnvRevision.notice] else []) /\
  stderr_output (trace SdkRevision.loadCredentialsWithFallback w)
  = (if is_returned (result SdkRevision.loadCredentialsWithFallback w)
        && negb (test_mode w)
     then [SdkRevision.notice] else []).
Proof.
  unfold test_mode. split.
  - unfold EnvRevision.loadCredentialsWithFallback. run_js.
    destruct (truthy _ && truthy _ && truthy _); simpl; [|done].
    by destruct (bool_decide _).
  - unfold SdkRevision.loadCredentialsWithFallback, SdkRevision.try_body.
    run_js.
    destruct (env w !! "DOPPLER_TOKEN") as [[|c t]|]; simpl; try done.
    destruct (doppler_list w _ _ _) as [resp|e0]; simpl; [|done].
    destruct (negb _ || negb _ || negb _); simpl; [done|].
    by destruct (bool_decide _).
Qed.

(** X10: setting [NODE_ENV], to [test] or to anything else, never changes
    what the resolver returns or throws. *)
Theorem test_mode_keeps_result (w : World) (value : string) :
  result EnvRevision.loadCredentialsWithFallback (with_env "NODE_ENV" value w)
  = result EnvRevision.loadCredentialsWithFallback w /\
  result SdkRevision.loadCredentialsWithFallback (with_env "NODE_ENV" value w)
  = result SdkRevision.loadCredentialsWithFallback w.
Proof.
  split.
  - unfold EnvRevision.loadCredentialsWithFallback. run_js.
    rewrite !lookup_insert_ne by done.
    destruct (truthy _ && truthy _ && truthy _); simpl; [|done].
    by do 2 destruct (bool_decide _).
  - unfold SdkRevision.loadCredentialsWithFallback, SdkRevision.try_body.
    run_js. rewrite !lookup_insert_ne by done.
    destruct (env w !! "DOPPLER_TOKEN") as [[|c t]|]; simpl; try done.
    destruct (doppler_list w _ _ _) as [resp|e0]; simpl; [|done].
    destruct (negb _ || negb _ || negb _); simpl; [done|].
    by do 2 destruct (bool_decide _).
Qed.

(** X11: the environment revision reads four variables and nothing else:
    two worlds that agree on [GOOGLE_CLIENT_ID], [GOOGLE_CLIENT_SECRET],
    [GOOGLE_REDIRECT_URI] and [NODE_ENV] give the same run, whatever their
    other variables, key files and secrets services are. *)
Theorem env_revision_reads_only (w w' : World) :
  Forall (fun name => env w !! name = env w' !! name)
         ("NODE_ENV" :: env_names) ->
  run EnvRevision.loadCredentialsWithFallback w
  = run EnvRevision.loadCredentialsWithFallback w'.
Proof.
  intros H. unfold env_names in H.
  apply Forall_cons in H as [Hn H]. apply Forall_cons in H as [Hi H].
  apply Forall_cons in H as [Hs H]. apply Forall_cons in H as [Hu _].
  unfold EnvRevision.loadCredentialsWithFallback. run_js.
  rewrite Hi, Hs, Hu.
  destruct (truthy _ && truthy _ && truthy _); simpl; [|done].
  rewrite Hn. by destruct (bool_decide _).
Qed.

Lemma env_revision_reads_only_witness :
  run EnvRevision.loadCredentialsWithFallback
      (with_env "DOPPLER_TOKEN" "dp.st.prd.token" env_only_world)
  = run EnvRevision.loadCredentialsWithFallback env_only_world.
Proof.
  apply (env_revision_reads_only
           (with_env "DOPPLER_TOKEN" "dp.st.prd.token" env_only_world)
           env_only_world).
  repeat constructor.
Defined.

(** X12: the SDK revision reads [DOPPLER_TOKEN] and [NODE_ENV] and asks
    the service once, for project [home_automation] and config [prd]:
    two worlds that agree on the two variables and on the service's
    answer for that token give the same run. *)
Theorem sdk_revision_reads_only (w w' : World) :
  env w !! "DOPPLER_TOKEN" = env w' !! "DOPPLER_TOKEN" ->
  env w !! "NODE_ENV" = env w' !! "NODE_ENV" ->
  (forall token,
     env w !! "DOPPLER_TOKEN" = Some token ->
     doppler_list w token "home_automation" "prd"
     = doppler_list w' token "home_automation" "prd") ->
  run SdkRevision.loadCredentialsWithFallback w
  = run SdkRevision.loadCredentialsWithFallback w'.
Proof.
  intros Ht Hn Hd.
  unfold SdkRevision.loadCredentialsWithFallback, SdkRevision.try_body.
  run_js. rewrite <- Ht.
  destruct (env w !! "DOPPLER_TOKEN") as [[|c t]|]; simpl; try done.
  rewrite <- (Hd (String c t)) by done.
  destruct (doppler_list w _ _ _) as [resp|e0]; simpl; [|done].
  destruct (negb _ || negb _ || negb _); simpl; [done|].
  rewrite Hn. by destruct (bool_decide _).
Qed.

Lemma sdk_revision_reads_only_witness :
  run SdkRevision.loadCredentialsWithFallback
      (with_env "GOOGLE_CLIENT_ID" "other" service_up_world)
  = run SdkRevision.loadCredentialsWithFallback service_up_world.
Proof.
  apply (sdk_revision_reads_only
           (with_env "GOOGLE_CLIENT_ID" "other" service_up_world)
           service_up_world); [reflexivity | reflexivity |].
  intros token _. reflexivity.
Defined.

(** X13: whenever the SDK revision calls the secrets service, it does so
    with the non-empty value of [DOPPLER_TOKEN] as access token, for
    project [home_automation] and config [prd]. *)
Theorem sdk_call_arguments (w : World) (token project config : string) :
  In (SdkList token project config)
     (trace SdkRevision.loadCredentialsWithFallback w) ->
  env w !! "DOPPLER_TOKEN" = Some token /\ token <> EmptyString /\
  project = "home_automation" /\ config = "prd".
Proof.
  unfold SdkRevision.loadCredentialsWithFallback, SdkRevision.try_body.
  run_js.
  destruct (env w !! "DOPPLER_TOKEN") as [[|c t]|]; simpl; try done.
  assert (Hhead : forall rest,
    In (SdkList token project config)
       (SdkList (String c t) "home_automation" "prd" :: rest) ->
    (forall ev, In ev rest -> exists text, ev = StderrWrite text) ->
    Some (String c t) = Some token /\ token <> EmptyString /\
    project = "home_automation" /\ config = "prd").
  { intros rest [[= <- <- <-]|Hin] Hrest; [done|].
    by destruct (Hrest _ Hin). }
  destruct (doppler_list w _ _ _) as [resp|e0]; simpl;
    [|intros H; apply (Hhead [] H); by intros ev []].
  destruct (negb _ || negb _ || negb _); simpl;
    [intros H; apply (Hhead [] H); by intros ev []|].
  destruct (bool_decide _); simpl; intros H.
  - apply (Hhead [] H). by intros ev [].
  - apply (Hhead [StderrWrite SdkRevision.notice] H).
    intros ev [<-|[]]. by eexists.
Qed.

Lemma sdk_call_arguments_witness :
  env service_down_world !! "DOPPLER_TOKEN" = Some "dp.st.prd.token" /\
  "dp.st.prd.token" <> EmptyString /\
  "home_automation" = "home_automation" /\ "prd" = "prd".
Proof.
  apply (sdk_call_arguments service_down_world).
  left. reflexivity.
Defined.

(** ** More on the file reader *)

Lemma file_run_parsed (w : World) (keys : jsval) :
  keys_file w = Returned keys ->
  run loadCredentialsFromFile w
  = ([ReadKeysFile],
     match get_prop keys "installed" with
     | Threw e => Threw e
     | Returned installed =>
         if truthy installed
         then Returned
                {| client_id := field installed "client_id";
                   client_secret := field installed "client_secret";
                   redirect_uris := field installed "redirect_uris" |}
         else if truthy (field keys "client_id")
                 && truthy (field keys "client_secret")
         then Returned
                {| client_id := field keys "client_id";
                   client_secret := field keys "client_secret";
                   redirect_uris :=
                     js_or (field keys "redirect_uris")
                           default_redirect_uris |}
         else Threw (Error invalid_format_message)
     end).
Proof.
  intros Hk.
  destruct (get_prop keys "installed") as [installed|e] eqn:Hi.
  - destruct (truthy installed) eqn:Ht.
    + by apply (file_run_installed w keys installed).
    + destruct (truthy (field keys "client_id")) eqn:Hc;
        [destruct (truthy (field keys "client_secret")) eqn:Hs|]; simpl.
      * by apply (file_run_flat w keys installed).
      * apply (file_run_invalid w keys installed); auto.
      * apply (file_run_invalid w keys installed); auto.
  - unfold loadCredentialsFromFile. run_js. by rewrite Hk, Hi.
Qed.

(** X14: the file reader reads the key file exactly once and touches
    nothing else, whatever the outcome; the environment and the secrets
    service have no influence on it. *)
Theorem file_reader_reads_once (w w' : World) :
  trace loadCredentialsFromFile w = [ReadKeysFile] /\
  (keys_file w = keys_file w' ->
   run loadCredentialsFromFile w = run loadCredentialsFromFile w').
Proof.
  split.
  - destruct (keys_file w) as [keys|e] eqn:Hk.
    + unfold trace. by rewrite (file_run_parsed w keys Hk).
    + unfold loadCredentialsFromFile. run_js. by rewrite Hk.
  - intros Heq. destruct (keys_file w) as [keys|e] eqn:Hk.
    + by rewrite (file_run_parsed w keys Hk),
        (file_run_parsed w' keys (eq_sym Heq)).
    + unfold loadCredentialsFromFile. run_js. by rewrite Hk, <- Heq.
Qed.

Lemma file_reader_reads_once_witness :
  keys_file (world_of_keys installed_doc) = keys_file service_down_world' /\
  run loadCredentialsFromFile (world_of_keys installed_doc)
  = run loadCredentialsFromFile service_down_world'.
Proof.
  split; [reflexivity|].
  apply (proj2 (file_reader_reads_once (world_of_keys installed_doc)
                  service_down_world')).
  reflexivity.
Defined.

(** X15: on a parsed document the file reader returns a record exactly
    when [installed] is truthy, or [client_id] and [client_secret] are
    both truthy; a document that is [null], a number, a string or an
    array is never accepted. *)
Theorem file_reader_accepts_iff (w : World) (keys : jsval) :
  keys_file w = Returned keys ->
  is_returned (result loadCredentialsFromFile w) = accepts keys /\
  (accepts keys = true -> exists props, keys = JObj props).
Proof.
  intros Hk. unfold result. rewrite (file_run_parsed w keys Hk). simpl.
  unfold accepts. split.
  - destruct keys; simpl; try done.
    unfold field. simpl.
    destruct (truthy (default JUndefined (own_prop props "installed")));
      [done|]. simpl.
    by destruct (truthy (default JUndefined (own_prop props "client_id"))
                 && truthy (default JUndefined
                              (own_prop props "client_secret"))).
  - destruct keys; try done. intros _. by eexists.
Qed.

Lemma file_reader_accepts_iff_witness :
  is_returned (result loadCredentialsFromFile (world_of_keys flat_doc))
  = accepts flat_doc /\
  (accepts flat_doc = true -> exists props, flat_doc = JObj props).
Proof.
  apply (file_reader_accepts_iff (world_of_keys flat_doc) flat_doc).
  reflexivity.
Defined.

(** X16: the file reader never wraps a failure.  What it throws is what
    reading or parsing the key file threw, unchanged; or the TypeError of
    reading a property of a [null] document; or the invalid-format
    Error. *)
Theorem file_reader_failure_kinds (w : World) (e : Thrown) :
  result loadCredentialsFromFile w = Threw e ->
  keys_file w = Threw e \/
  (keys_file w = Returned JNull /\
   e = ErrorObject TypeError
         "Cannot read properties of null (reading 'installed')") \/
  (keys_file w = Returned JUndefined /\
   e = ErrorObject TypeError
         "Cannot read properties of undefined (reading 'installed')") \/
  e = Error invalid_format_message.
Proof.
  destruct (keys_file w) as [keys|e0] eqn:Hk.
  - unfold result. rewrite (file_run_parsed w keys Hk). simpl.
    destruct keys; simpl;
      try (intros [= <-]; by auto);
      try (destruct (truthy _); [done|]; destruct (truthy _ && truthy _);
           [done | intros [= <-]; by auto 6]).
  - unfold loadCredentialsFromFile. run_js. rewrite Hk. simpl.
    intros [= <-]. by left.
Qed.

Lemma file_reader_failure_kinds_witness :
  keys_file env_only_world = Threw no_such_file \/
  (keys_file env_only_world = Returned JNull /\
   no_such_file
   = ErrorObject TypeError
       "Cannot read properties of null (reading 'installed')") \/
  (keys_file env_only_world = Returned JUndefined /\
   no_such_file
   = ErrorObject TypeError
       "Cannot read properties of undefined (reading 'installed')") \/
  no_such_file = Error invalid_format_message.
Proof.
  apply (file_reader_failure_kinds env_only_world no_such_file).
  reflexivity.
Defined.

(** ** The two entry points together *)

Lemma resolved_record_shape
    (resolver : Js OAuthCredentials) (w : World) (r : OAuthCredentials) :
  resolver = EnvRevision.loadCredentialsWithFallback
  \/ resolver = SdkRevision.loadCredentialsWithFallback ->
  result resolver w = Returned r ->
  truthy (client_id r) = true /\ truthy (client_secret r) = true /\
  exists u, redirect_uris r = JArr [JStr u] /\ u <> EmptyString.
Proof.
  intros [-> | ->].
  - rewrite env_resolver_result. unfold env_names, env_set. simpl.
    destruct (env w !! "GOOGLE_CLIENT_ID") as [[|c1 i]|]; simpl; try done.
    destruct (env w !! "GOOGLE_CLIENT_SECRET") as [[|c2 s]|]; simpl;
      try done.
    destruct (env w !! "GOOGLE_REDIRECT_URI") as [[|c3 u]|]; simpl;
      try done.
    intros [= <-]. simpl. repeat split. by eexists.
  - unfold result.
    destruct (run SdkRevision.try_body w) as [tr o] eqn:Hrun.
    rewrite (sdk_wraps _ _ _ Hrun). simpl.
    destruct o as [r'|e0]; [|done]. intros [= ->]. revert Hrun.
    unfold SdkRevision.try_body. run_js.
    destruct (env w !! "DOPPLER_TOKEN") as [[|c t]|]; simpl; try done.
    destruct (doppler_list w _ _ _) as [resp|e]; [|done].
    destruct (SdkRevision.computed_of _ "GOOGLE_CLIENT_ID")
      as [[|c1 i]|]; simpl; try done.
    destruct (SdkRevision.computed_of _ "GOOGLE_CLIENT_SECRET")
      as [[|c2 s]|]; simpl; try done.
    destruct (SdkRevision.computed_of _ "GOOGLE_REDIRECT_URI")
      as [[|c3 u]|]; simpl; try done.
    destruct (bool_decide _); simpl; intros [= _ <-]; simpl;
      repeat split; by eexists.
Qed.

(** X17: with the resolver of either revision, [loadCredentials] and
    [initializeOAuth2Client] succeed or fail together, with exactly the
    effects of the resolver; when they succeed the client carries the
    same [client_id] and [client_secret] as the pair, and a non-empty
    string as redirect URI. *)
Theorem entry_points_agree
    (resolver : Js OAuthCredentials) (w : World) :
  resolver = EnvRevision.loadCredentialsWithFallback
  \/ resolver = SdkRevision.loadCredentialsWithFallback ->
  trace (loadCredentialsUsing resolver) w = trace resolver w /\
  trace (initializeOAuth2ClientUsing resolver) w = trace resolver w /\
  match result (loadCredentialsUsing resolver) w,
        result (initializeOAuth2ClientUsing resolver) w with
  | Returned m, Returned c =>
      clientId c = min_client_id m /\
      clientSecret c = min_client_secret m /\
      nonempty_string (redirectUri c) = true
  | Threw e1, Threw e2 =>
      exists reason,
        e1 = Error ("Error loading credentials: " +:+ reason) /\
        e2 = Error ("Error loading OAuth keys: " +:+ reason)
  | _, _ => False
  end.
Proof.
  intros Hres. unfold trace, result.
  rewrite loadCredentialsUsing_run, initializeOAuth2ClientUsing_run. simpl.
  repeat split.
  pose proof (resolved_record_shape resolver w) as Hshape.
  unfold result in Hshape.
  destruct (run resolver w).2 as [r|e0].
  - destruct (Hshape r Hres eq_refl) as (-> & -> & u & -> & Hu). simpl.
    repeat split. by destruct u.
  - by eexists.
Qed.

Lemma entry_points_agree_witness :
  trace EnvRevision.loadCredentials env_only_world
  = trace EnvRevision.loadCredentialsWithFallback env_only_world /\
  trace EnvRevision.initializeOAuth2Client env_only_world
  = trace EnvRevision.loadCredentialsWithFallback env_only_world.
Proof.
  destruct (entry_points_agree EnvRevision.loadCredentialsWithFallback
              env_only_world (or_introl eq_refl)) as (H1 & H2 & _).
  split; [exact H1 | exact H2].
Defined.
